(** * SlamWrapper: the JNI bridge of the SLAM navigation app

    A shallow embedding of
    [android/app/src/main/cpp/slam-module/SlamWrapper.cpp] and of the
    declarations of [SlamWrapper.h].

    - The four file-scope globals ([g_pSLAM], [g_isInitialized],
      [g_trackingState], [g_currentPose]) form the record [Session]; every
      native entry point is a computation in the monad [Native], which threads
      the globals and collects the lines written to the Android log.
    - Every entry point takes [g_slamMutex] for its whole body, so calls are
      serialised; a call is one atomic step of the model.
    - [float] is IEEE binary32 and [jdouble] is IEEE binary64, both over the
      standard library's [spec_float] with round-to-nearest-even.
    - OpenCV is not part of the repository: [cv::Mat], [cv::imdecode] and
      [cv::imread] are the members of the class [OpenCV]. *)

From Stdlib Require Import ZArith String List Bool Lia.
From Stdlib Require Import Floats.SpecFloat.
From stdpp Require Import base list.

Import ListNotations.
Local Open Scope string_scope.
Local Open Scope list_scope.
Local Open Scope Z_scope.

(** ** Floating point *)

(** [float]: precision 24, maximal exponent 128. *)
Module F32.
Definition prec : Z := 24.
Definition emax : Z := 128.
Definition valid (x : spec_float) : bool := valid_binary prec emax x.
Definition add : spec_float -> spec_float -> spec_float := SFadd prec emax.
Definition sub : spec_float -> spec_float -> spec_float := SFsub prec emax.
Definition mul : spec_float -> spec_float -> spec_float := SFmul prec emax.
Definition div : spec_float -> spec_float -> spec_float := SFdiv prec emax.
Definition sqrt : spec_float -> spec_float := SFsqrt prec emax.
Definition of_Z (n : Z) : spec_float := binary_normalize prec emax n 0 false.
End F32.

(** [double]: precision 53, maximal exponent 1024. *)
Module F64.
Definition prec : Z := 53.
Definition emax : Z := 1024.
Definition valid (x : spec_float) : bool := valid_binary prec emax x.
End F64.

Definition jfloat : Type := spec_float.
Definition jdouble : Type := spec_float.
Definition jstring : Type := string.

(** The literals [0.0f], [1.0f] and [0.001f] (bit pattern [0x3A83126F]). *)
Definition f32_zero : jfloat := S754_zero false.
Definition f32_one : jfloat := S754_finite false 8388608 (-23).
Definition f32_milli : jfloat := S754_finite false 8589935 (-33).

(** ** The Android log *)

Inductive LogPriority : Type :=
| ANDROID_LOG_DEBUG
| ANDROID_LOG_INFO
| ANDROID_LOG_ERROR.

(** A variadic argument of [__android_log_print]; a [float] argument is
    promoted to [double] without loss, so it is kept as the [float] it was. *)
Inductive LogArg : Type :=
| ArgString (s : string)
| ArgDouble (d : jdouble)
| ArgFloat (f : jfloat).

Record LogLine : Type := mkLogLine {
  log_prio : LogPriority;
  log_tag : string;
  log_fmt : string;
  log_args : list LogArg
}.

Definition LOG_TAG : string := "ORB_SLAM3".

(** ** Global state *)

(** [nullptr]. *)
Definition nullptr : Z := 0.

Record Session : Type := mkSession {
  g_pSLAM : Z;
  g_isInitialized : bool;
  g_trackingState : Z;
  g_currentPose : list jfloat
}.

(** The static initialisers of the four globals. *)
Definition initial_session : Session :=
  {| g_pSLAM := nullptr;
     g_isInitialized := false;
     g_trackingState := 0;
     g_currentPose :=
       [f32_zero; f32_zero; f32_zero; f32_zero; f32_zero; f32_zero; f32_one] |}.

(** ** The monad of native calls: state and log output *)

Definition Native (A : Type) : Type := Session -> A * Session * list LogLine.

Definition ret {A : Type} (a : A) : Native A := fun g => (a, g, []).

Definition bind {A B : Type} (m : Native A) (k : A -> Native B) : Native B :=
  fun g =>
    let '(a, g1, out1) := m g in
    let '(b, g2, out2) := k a g1 in
    (b, g2, out1 ++ out2).

Declare Scope native_scope.
Delimit Scope native_scope with native.
Notation "'let*' x ':=' m 'in' k" := (bind m (fun x => k))
  (at level 10, x name, m at level 100, k at level 200) : native_scope.
Notation "m ';;' k" := (bind m (fun _ => k))
  (at level 100, k at level 200, right associativity) : native_scope.

Definition result_of {A : Type} (r : A * Session * list LogLine) : A := r.1.1.
Definition session_of {A : Type} (r : A * Session * list LogLine) : Session := r.1.2.
Definition log_of {A : Type} (r : A * Session * list LogLine) : list LogLine := r.2.

Definition load {A : Type} (field : Session -> A) : Native A :=
  fun g => (field g, g, []).

Definition store_pSLAM (p : Z) : Native unit :=
  fun g => (tt, {| g_pSLAM := p;
                   g_isInitialized := g_isInitialized g;
                   g_trackingState := g_trackingState g;
                   g_currentPose := g_currentPose g |}, []).

Definition store_isInitialized (b : bool) : Native unit :=
  fun g => (tt, {| g_pSLAM := g_pSLAM g;
                   g_isInitialized := b;
                   g_trackingState := g_trackingState g;
                   g_currentPose := g_currentPose g |}, []).

Definition store_trackingState (st : Z) : Native unit :=
  fun g => (tt, {| g_pSLAM := g_pSLAM g;
                   g_isInitialized := g_isInitialized g;
                   g_trackingState := st;
                   g_currentPose := g_currentPose g |}, []).

Definition modify_currentPose (f : list jfloat -> list jfloat) : Native unit :=
  fun g => (tt, {| g_pSLAM := g_pSLAM g;
                   g_isInitialized := g_isInitialized g;
                   g_trackingState := g_trackingState g;
                   g_currentPose := f (g_currentPose g) |}, []).

Definition android_log_print (p : LogPriority) (fmt : string)
    (args : list LogArg) : Native unit :=
  fun g => (tt, g, [mkLogLine p LOG_TAG fmt args]).

Definition LOGI := android_log_print ANDROID_LOG_INFO.
Definition LOGE := android_log_print ANDROID_LOG_ERROR.
Definition LOGD := android_log_print ANDROID_LOG_DEBUG.

(** ** OpenCV, as far as the wrapper uses it *)

Class OpenCV : Type := {
  Mat : Type;
  (** [cv::Mat::empty()] *)
  Mat_empty : Mat -> bool;
  (** [cv::imdecode(buf, cv::IMREAD_GRAYSCALE)] *)
  imdecode : list Z -> Mat;
  (** [cv::imread(path, cv::IMREAD_GRAYSCALE)] *)
  imread : string -> Mat
}.

Local Open Scope native_scope.

Section Wrapper.
Context {cv : OpenCV}.

(** [base64ToMat]: the buffer [data] is declared and never filled, so the
    decoder always receives the empty buffer, whatever [base64Data] is. *)
Definition base64ToMat (base64Data : string) : Mat :=
  let data : list Z := [] in
  let img := imdecode data in
  img.

Definition loadImage (imagePath : string) : Native Mat :=
  let img := imread imagePath in
  (if Mat_empty img
   then LOGE "Failed to load image from: %s" [ArgString imagePath]
   else ret tt) ;;
  ret img.

(** [initializeSlamNative]: the body of the [try] block is two assignments
    and a log call; nothing in it throws, so the [catch] clause never
    runs. The two paths are only logged. *)
Definition initializeSlamNative (vocabPath settingsPath : jstring)
    : Native unit :=
  let vocabPathStr := vocabPath in
  let settingsPathStr := settingsPath in
  LOGI "Initializing ORB-SLAM3" [] ;;
  LOGI "Vocabulary: %s" [ArgString vocabPathStr] ;;
  LOGI "Settings: %s" [ArgString settingsPathStr] ;;
  store_isInitialized true ;;
  store_trackingState 1 ;;
  LOGI "ORB-SLAM3 initialized successfully" [].

(** [imageStr.find("data:image") != std::string::npos] *)
Definition contains_data_image (imageStr : string) : bool :=
  match String.index 0 "data:image" imageStr with
  | Some _ => true
  | None => false
  end.

(** [g_currentPose[i] += 0.001f] *)
Definition pose_increment (i : nat) : Native unit :=
  modify_currentPose (alter (fun x => F32.add x f32_milli) i).

(** [processFrameNative]: [None] is the [nullptr] result; [Some] holds the
    seven floats copied into the new Java array. *)
Definition processFrameNative (imageData : jstring) (timestamp : jdouble)
    : Native (option (list jfloat)) :=
  let* initialized := load g_isInitialized in
  if negb initialized then
    LOGE "SLAM system not initialized" [] ;;
    ret None
  else
    let imageStr := imageData in
    LOGD "Processing frame at timestamp: %f" [ArgDouble timestamp] ;;
    let* frame :=
      (if contains_data_image imageStr
       then ret (base64ToMat imageStr)
       else loadImage imageStr) in
    if Mat_empty frame then
      LOGE "Invalid frame data" [] ;;
      ret None
    else
      pose_increment 0 ;;
      pose_increment 1 ;;
      pose_increment 2 ;;
      store_trackingState 2 ;;
      let* pose := load g_currentPose in
      let result := take 7 pose in
      LOGD "Pose: [%.3f, %.3f, %.3f]"
        (ArgFloat <$> take 3 pose) ;;
      ret (Some result).

(** [resetNative]: the guarded block on [g_pSLAM] is empty. *)
Definition resetNative : Native unit :=
  LOGI "Resetting SLAM system" [] ;;
  let* pSLAM := load g_pSLAM in
  (if negb (pSLAM =? nullptr) then ret tt else ret tt) ;;
  modify_currentPose
    (fun pose => foldl (fun p i => <[i := f32_zero]> p) pose (seq 0 6)) ;;
  modify_currentPose (fun pose => <[6%nat := f32_one]> pose) ;;
  store_trackingState 1.

Definition shutdownNative : Native unit :=
  LOGI "Shutting down SLAM system" [] ;;
  let* pSLAM := load g_pSLAM in
  (if negb (pSLAM =? nullptr) then store_pSLAM nullptr else ret tt) ;;
  store_isInitialized false ;;
  store_trackingState 0.

Definition getTrackingStateNative : Native Z :=
  load g_trackingState.

End Wrapper.

(** ** Sequences of calls from the host application *)

Inductive Call : Type :=
| CallInitialize (vocabPath settingsPath : jstring)
| CallProcessFrame (imageData : jstring) (timestamp : jdouble)
| CallReset
| CallShutdown
| CallGetTrackingState.

Inductive Reply : Type :=
| ReplyVoid
| ReplyPose (pose : option (list jfloat))
| ReplyInt (n : Z).

(** ** Log lines and pose arrays *)

Definition line (p : LogPriority) (fmt : string) (args : list LogArg) : LogLine :=
  mkLogLine p LOG_TAG fmt args.

Definition is_error (l : LogLine) : bool :=
  match log_prio l with
  | ANDROID_LOG_ERROR => true
  | _ => false
  end.

(** The three increments of [processFrameNative] on the pose array. *)
Definition advance (pose : list jfloat) : list jfloat :=
  alter (fun x => F32.add x f32_milli) 2%nat
    (alter (fun x => F32.add x f32_milli) 1%nat
       (alter (fun x => F32.add x f32_milli) 0%nat pose)).

(** The two loops of [resetNative] on the pose array. *)
Definition cleared (pose : list jfloat) : list jfloat :=
  <[6%nat := f32_one]> (foldl (fun p i => <[i := f32_zero]> p) pose (seq 0 6)).

Section Driver.
Context {cv : OpenCV}.

Definition invoke (c : Call) : Native Reply :=
  match c with
  | CallInitialize v s => initializeSlamNative v s ;; ret ReplyVoid
  | CallProcessFrame img ts =>
      let* r := processFrameNative img ts in ret (ReplyPose r)
  | CallReset => resetNative ;; ret ReplyVoid
  | CallShutdown => shutdownNative ;; ret ReplyVoid
  | CallGetTrackingState =>
      let* n := getTrackingStateNative in ret (ReplyInt n)
  end.

Fixpoint run (cs : list Call) : Native (list Reply) :=
  match cs with
  | [] => ret []
  | c :: cs' =>
      let* r := invoke c in
      let* rs := run cs' in
      ret (r :: rs)
  end.

(** The sessions the process can be in: the static initialisers, followed
    by any number of native calls. *)
Inductive reachable : Session -> Prop :=
| reachable_initial : reachable initial_session
| reachable_invoke (g : Session) (c : Call) :
    reachable g -> reachable (session_of (invoke c g)).

(** The frame [processFrameNative] obtains for an image argument. *)
Definition frame_of (imageStr : string) : Mat :=
  if contains_data_image imageStr then base64ToMat imageStr
  else imread imageStr.

(** What loading the frame writes to the log. *)
Definition frame_log (imageStr : string) : list LogLine :=
  if contains_data_image imageStr then []
  else if Mat_empty (imread imageStr)
       then [line ANDROID_LOG_ERROR "Failed to load image from: %s"
               [ArgString imageStr]]
       else [].

(** What holds of the globals in every reachable session. *)
Record well_formed (g : Session) : Prop := {
  wf_pSLAM : g_pSLAM g = nullptr;
  wf_state :
    g_trackingState g = 0 \/ g_trackingState g = 1 \/ g_trackingState g = 2;
  wf_tracking : g_trackingState g = 2 -> g_isInitialized g = true;
  wf_pose : exists x y z,
    g_currentPose g = [x; y; z; f32_zero; f32_zero; f32_zero; f32_one]
}.

End Driver.

(** ** The quaternion of a pose array *)

(** The literal [1e-4f] (bit pattern [0x38D1B717]). *)
Definition f32_tolerance : jfloat := S754_finite false 13743895 (-37).

Definition quaternion (pose : list jfloat) : list jfloat := drop 3 pose.

(** The Euclidean norm, computed in [float]. *)
Definition norm (q : list jfloat) : jfloat :=
  F32.sqrt (foldl (fun acc c => F32.add acc (F32.mul c c)) f32_zero q).

(** [fabsf(1.0f - norm) < 1e-4f] *)
Definition unit_norm (q : list jfloat) : bool :=
  SFltb (SFabs (F32.sub f32_one (norm q))) f32_tolerance.

(** ** A concrete OpenCV for running the model

    Images are lists of grey values; one file exists and holds one pixel. *)
Module Fixture.

Definition frame_path : string := "/sdcard/frames/000001.png".

Definition cv : OpenCV := {|
  Mat := list Z;
  Mat_empty := fun m => match m with [] => true | _ :: _ => false end;
  imdecode := fun buf => buf;
  imread := fun path => if String.eqb path frame_path then [128] else []
|}.

(** The timestamps [1.0] and [2.0]. *)
Definition t1 : jdouble := S754_finite false 4503599627370496 (-52).
Definition t2 : jdouble := S754_finite false 4503599627370496 (-51).

#[local] Existing Instance cv.

Definition missing_path : string := "/sdcard/frames/missing.png".

(** The session after [initializeSlamNative]. *)
Definition started : Session :=
  session_of (initializeSlamNative "ORBvoc.txt" "camera.yaml" initial_session).

(** The session after one tracked frame. *)
Definition tracking : Session :=
  session_of (processFrameNative frame_path t1 started).

End Fixture.

(** ** Runs of frames *)

(** The error lines among the lines a call writes. *)
Definition error_lines (out : list LogLine) : nat :=
  length (List.filter is_error out).

(** [n] times [v += 0.001f]. *)
Definition incremented (n : nat) (x : jfloat) : jfloat :=
  Nat.iter n (fun v => F32.add v f32_milli) x.

Section Frames.
Context {cv : OpenCV}.

(** How many image arguments of a list give a frame that is not empty. *)
Definition tracked_count (frames : list (jstring * jdouble)) : nat :=
  length (List.filter (fun f => negb (Mat_empty (frame_of f.1))) frames).

End Frames.

(** ** The literals *)

(** The literals are the [float]s nearest to 1, 1/1000 and 1/10000. *)
Lemma f32_literals :
  F32.of_Z 1 = f32_one /\
  F32.div f32_one (F32.of_Z 1000) = f32_milli /\
  F32.div f32_one (F32.of_Z 10000) = f32_tolerance.
Proof. repeat split; vm_compute; reflexivity. Qed.

(** The literals of the model are numbers of their formats. *)
Lemma literals_valid :
  forallb F32.valid [f32_zero; f32_one; f32_milli; f32_tolerance] = true /\
  forallb F64.valid [Fixture.t1; Fixture.t2] = true.
Proof. split; vm_compute; reflexivity. Qed.

(** ** Equations of the entry points *)

(** The test on the image argument finds the marker anywhere in it. *)
Lemma contains_data_image_examples :
  contains_data_image "data:image/png;base64,iVBORw0KGgo=" = true /\
  contains_data_image "/cache/data:image.png" = true /\
  contains_data_image "/sdcard/frames/000001.png" = false /\
  contains_data_image "data:imag" = false.
Proof. repeat split. Qed.

Section Equations.
Context {cv : OpenCV}.

Lemma processFrameNative_uninitialized g img ts :
  g_isInitialized g = false ->
  processFrameNative img ts g =
    (None, g, [line ANDROID_LOG_ERROR "SLAM system not initialized" []]).
Proof.
  intros Hinit. unfold processFrameNative, bind, load. simpl.
  rewrite Hinit. reflexivity.
Qed.

Lemma processFrameNative_invalid g img ts :
  g_isInitialized g = true ->
  Mat_empty (frame_of img) = true ->
  processFrameNative img ts g =
    (None, g,
     line ANDROID_LOG_DEBUG "Processing frame at timestamp: %f" [ArgDouble ts]
       :: frame_log img
       ++ [line ANDROID_LOG_ERROR "Invalid frame data" []]).
Proof.
  intros Hinit. unfold frame_of, frame_log, processFrameNative, loadImage, bind, load.
  simpl. rewrite Hinit. simpl.
  destruct (contains_data_image img); simpl; intros Hempty.
  - rewrite Hempty. reflexivity.
  - rewrite Hempty. simpl. rewrite Hempty. reflexivity.
Qed.

Lemma processFrameNative_tracked g img ts :
  g_isInitialized g = true ->
  Mat_empty (frame_of img) = false ->
  processFrameNative img ts g =
    (Some (take 7 (advance (g_currentPose g))),
     {| g_pSLAM := g_pSLAM g;
        g_isInitialized := true;
        g_trackingState := 2;
        g_currentPose := advance (g_currentPose g) |},
     [line ANDROID_LOG_DEBUG "Processing frame at timestamp: %f" [ArgDouble ts];
      line ANDROID_LOG_DEBUG "Pose: [%.3f, %.3f, %.3f]"
        (ArgFloat <$> take 3 (advance (g_currentPose g)))]).
Proof.
  intros Hinit. unfold frame_of, processFrameNative, loadImage, bind, load.
  simpl. rewrite Hinit. simpl.
  destruct (contains_data_image img); simpl; intros Hempty.
  - rewrite Hempty. simpl. rewrite Hinit. reflexivity.
  - rewrite Hempty. simpl. rewrite Hempty. simpl. rewrite Hinit. reflexivity.
Qed.

(** A pose comes back exactly when the session is initialised and the frame
    is not empty. *)
Lemma processFrameNative_Some g img ts pose :
  result_of (processFrameNative img ts g) = Some pose ->
  g_isInitialized g = true /\ Mat_empty (frame_of img) = false.
Proof.
  destruct (g_isInitialized g) eqn:Hinit.
  - destruct (Mat_empty (frame_of img)) eqn:Hempty; [|done].
    rewrite processFrameNative_invalid by done. discriminate.
  - rewrite processFrameNative_uninitialized by done. discriminate.
Qed.

Lemma initializeSlamNative_eq vocab settings g :
  initializeSlamNative vocab settings g =
    (tt,
     {| g_pSLAM := g_pSLAM g;
        g_isInitialized := true;
        g_trackingState := 1;
        g_currentPose := g_currentPose g |},
     [line ANDROID_LOG_INFO "Initializing ORB-SLAM3" [];
      line ANDROID_LOG_INFO "Vocabulary: %s" [ArgString vocab];
      line ANDROID_LOG_INFO "Settings: %s" [ArgString settings];
      line ANDROID_LOG_INFO "ORB-SLAM3 initialized successfully" []]).
Proof. reflexivity. Qed.

Lemma resetNative_eq g :
  resetNative g =
    (tt,
     {| g_pSLAM := g_pSLAM g;
        g_isInitialized := g_isInitialized g;
        g_trackingState := 1;
        g_currentPose := cleared (g_currentPose g) |},
     [line ANDROID_LOG_INFO "Resetting SLAM system" []]).
Proof.
  unfold resetNative, bind, load. simpl.
  destruct (g_pSLAM g =? nullptr); reflexivity.
Qed.

Lemma shutdownNative_eq g :
  shutdownNative g =
    (tt,
     {| g_pSLAM := nullptr;
        g_isInitialized := false;
        g_trackingState := 0;
        g_currentPose := g_currentPose g |},
     [line ANDROID_LOG_INFO "Shutting down SLAM system" []]).
Proof.
  unfold shutdownNative, bind, load. simpl.
  destruct (g_pSLAM g =? nullptr) eqn:Hnull; simpl; [|reflexivity].
  apply Z.eqb_eq in Hnull. rewrite Hnull. reflexivity.
Qed.

End Equations.

(** ** Invariants of the reachable sessions *)

Section Invariants.
Context {cv : OpenCV}.

Lemma session_of_bind_ret {A B : Type} (m : Native A) (f : A -> B) g :
  session_of (bind m (fun a => ret (f a)) g) = session_of (m g).
Proof.
  unfold session_of, bind, ret. destruct (m g) as [[a g1] out]. reflexivity.
Qed.

Lemma session_of_invoke c g :
  session_of (invoke c g) =
    match c with
    | CallInitialize v s => session_of (initializeSlamNative v s g)
    | CallProcessFrame img ts => session_of (processFrameNative img ts g)
    | CallReset => session_of (resetNative g)
    | CallShutdown => session_of (shutdownNative g)
    | CallGetTrackingState => g
    end.
Proof.
  destruct c; unfold invoke;
    first [ apply (session_of_bind_ret _ (fun _ => ReplyVoid))
          | apply session_of_bind_ret ].
Qed.

Lemma session_of_run_cons c cs g :
  session_of (run (c :: cs) g) = session_of (run cs (session_of (invoke c g))).
Proof.
  simpl. unfold session_of, bind, ret.
  destruct (invoke c g) as [[r g1] out1]. simpl.
  destruct (run cs g1) as [[rs g2] out2]. reflexivity.
Qed.

Lemma reachable_run cs : forall g, reachable g -> reachable (session_of (run cs g)).
Proof.
  induction cs as [|c cs IH]; intros g Hg.
  - exact Hg.
  - rewrite session_of_run_cons. apply IH. by constructor.
Qed.

Lemma session_of_run_app cs cs' : forall g,
  session_of (run (cs ++ cs') g) = session_of (run cs' (session_of (run cs g))).
Proof.
  induction cs as [|c cs IH]; intros g.
  - reflexivity.
  - change ((c :: cs) ++ cs') with (c :: (cs ++ cs')).
    rewrite !session_of_run_cons. apply IH.
Qed.

(** Every reachable session is the session after some list of calls. *)
Lemma reachable_is_run g :
  reachable g -> exists cs, g = session_of (run cs initial_session).
Proof.
  induction 1 as [|g c _ [cs ->]].
  - by exists [].
  - exists (cs ++ [c]). rewrite session_of_run_app, session_of_run_cons.
    reflexivity.
Qed.

Lemma well_formed_initial : well_formed initial_session.
Proof.
  split; simpl; [done | by left | done | by eexists _, _, _].
Qed.

Lemma well_formed_processFrameNative img ts g :
  well_formed g -> well_formed (session_of (processFrameNative img ts g)).
Proof.
  intros Hwf. destruct (g_isInitialized g) eqn:Hinit.
  - destruct (Mat_empty (frame_of img)) eqn:Hempty.
    + by rewrite processFrameNative_invalid.
    + rewrite processFrameNative_tracked by done.
      destruct Hwf as [Hp _ _ (x & y & z & Hpose)].
      split; simpl; [done | by right; right | done |].
      rewrite Hpose. by eexists _, _, _.
  - by rewrite processFrameNative_uninitialized.
Qed.

Lemma well_formed_invoke c g :
  well_formed g -> well_formed (session_of (invoke c g)).
Proof.
  intros Hwf. rewrite session_of_invoke. destruct c as [v s|img ts| | |].
  - rewrite initializeSlamNative_eq. destruct Hwf as [Hp _ _ Hpose].
    split; simpl; [done | by right; left | done | done].
  - by apply well_formed_processFrameNative.
  - rewrite resetNative_eq. destruct Hwf as [Hp _ _ (x & y & z & Hpose)].
    split; simpl; [done | by right; left | done |].
    rewrite Hpose. by eexists _, _, _.
  - rewrite shutdownNative_eq. destruct Hwf as [Hp _ _ Hpose].
    split; simpl; [done | by left | done | done].
  - done.
Qed.

Lemma reachable_well_formed g : reachable g -> well_formed g.
Proof.
  induction 1; auto using well_formed_initial, well_formed_invoke.
Qed.

End Invariants.

(** ** Properties of the wrapper *)

Section Properties.
Context {cv : OpenCV}.


(** C2, as the code has it. A call whose timestamp is strictly less than an
    earlier call's is handled like a call with any other timestamp: the
    result and the session it leaves are the same for every timestamp, and
    when the session is initialised and the frame is not empty the call
    returns a pose, advances the stored pose and sets the tracking state
    to 2. *)
Theorem processFrameNative_out_of_order g img1 t1 img2 t2 :
  SFltb t2 t1 = true ->
  let g1 := session_of (processFrameNative img1 t1 g) in
  let late := processFrameNative img2 t2 g1 in
  (forall t,
      result_of late = result_of (processFrameNative img2 t g1) /\
      session_of late = session_of (processFrameNative img2 t g1)) /\
  (if g_isInitialized g1 && negb (Mat_empty (frame_of img2))
   then result_of late = Some (take 7 (advance (g_currentPose g1))) /\
        g_currentPose (session_of late) = advance (g_currentPose g1) /\
        g_trackingState (session_of late) = 2
   else result_of late = None /\ session_of late = g1).
Proof.
  intros _ g1 late. subst late.
  destruct (g_isInitialized g1) eqn:Hinit; cbn [andb].
  - destruct (Mat_empty (frame_of img2)) eqn:Hframe; cbn [negb].
    + split; [intros t|]; by rewrite !processFrameNative_invalid.
    + split; [intros t|]; by rewrite !processFrameNative_tracked.
  - split; [intros t|]; by rewrite !processFrameNative_uninitialized.
Qed.

(** A run of [processFrameNative] calls on a session that is not
    initialised: every call returns [nullptr], logs the same error line,
    and leaves the session as it was. *)
Lemma run_frames_uninitialized (frames : list (jstring * jdouble)) g :
  g_isInitialized g = false ->
  run (map (fun f => CallProcessFrame f.1 f.2) frames) g =
    (map (fun _ => ReplyPose None) frames, g,
     map (fun _ => line ANDROID_LOG_ERROR "SLAM system not initialized" [])
       frames).
Proof.
  intros Hinit. induction frames as [|[img ts] frames IH].
  - reflexivity.
  - cbn [map run invoke fst snd]. unfold bind at 1 2.
    rewrite processFrameNative_uninitialized by done.
    cbn [ret]. unfold bind at 1. rewrite IH. unfold ret.
    cbn [app map]. by rewrite app_nil_r.
Qed.


(** C4. In every reachable session, the quaternion of every pose array
    that [processFrameNative] returns is the identity (0, 0, 0, 1); its
    norm, computed in [float], is within [1e-4] of 1. *)
Theorem processFrameNative_unit_quaternion g img ts pose :
  reachable g ->
  result_of (processFrameNative img ts g) = Some pose ->
  quaternion pose = [f32_zero; f32_zero; f32_zero; f32_one] /\
  norm (quaternion pose) = f32_one /\
  unit_norm (quaternion pose) = true.
Proof.
  intros Hreach Hres.
  destruct (processFrameNative_Some _ _ _ _ Hres) as [Hinit Hframe].
  rewrite processFrameNative_tracked in Hres by done.
  injection Hres as <-.
  destruct (reachable_well_formed _ Hreach) as [_ _ _ (x & y & z & ->)].
  change (quaternion (take 7 (advance [x; y; z; f32_zero; f32_zero; f32_zero; f32_one])))
    with [f32_zero; f32_zero; f32_zero; f32_one].
  repeat split; vm_compute; reflexivity.
Qed.

(** C5, as the code has it. In a reachable session with tracking state 2
    (OK), a [processFrameNative] call whose image gives an empty frame
    returns [nullptr] after logging "Invalid frame data"; the tracking state
    stays 2 and the stored pose is the one stored before. *)
Theorem processFrameNative_invalid_frame_after_OK g img ts :
  reachable g ->
  g_trackingState g = 2 ->
  Mat_empty (frame_of img) = true ->
  let r := processFrameNative img ts g in
  result_of r = None /\
  last (log_of r) = Some (line ANDROID_LOG_ERROR "Invalid frame data" []) /\
  session_of r = g /\
  g_trackingState (session_of r) = 2 /\
  g_currentPose (session_of r) = g_currentPose g.
Proof.
  intros Hreach Hok Hframe r. subst r.
  pose proof (wf_tracking _ (reachable_well_formed _ Hreach) Hok) as Hinit.
  rewrite processFrameNative_invalid by done.
  unfold result_of, session_of, log_of. cbn [fst snd].
  repeat split; try done.
  rewrite app_comm_cons. apply last_snoc.
Qed.

(** C6, as the code has it. From tracking state 1 (NOT_INITIALIZED), two
    [processFrameNative] calls with the same image leave the tracking state
    at 2 (OK) when the session is initialised and the image gives a frame
    that is not empty, and at 1 otherwise. *)
Theorem processFrameNative_twice_same_image g img ts1 ts2 :
  g_trackingState g = 1 ->
  let g2 :=
    session_of (run [CallProcessFrame img ts1; CallProcessFrame img ts2] g) in
  g_trackingState g2 =
    if g_isInitialized g && negb (Mat_empty (frame_of img)) then 2 else 1.
Proof.
  intros Hstate g2. subst g2.
  rewrite !session_of_run_cons, !session_of_invoke.
  cbn [run ret session_of fst snd].
  destruct (g_isInitialized g) eqn:Hinit; cbn [andb].
  - destruct (Mat_empty (frame_of img)) eqn:Hframe; cbn [negb].
    + rewrite (processFrameNative_invalid g) by done. cbn [fst snd].
      by rewrite processFrameNative_invalid.
    + rewrite (processFrameNative_tracked g) by done. cbn [fst snd].
      by rewrite processFrameNative_tracked.
  - rewrite (processFrameNative_uninitialized g) by done. cbn [fst snd].
    by rewrite processFrameNative_uninitialized.
Qed.

(** C7. In every reachable session, [resetNative] sets the tracking state
    to 1 (NOT_INITIALIZED), the position to zero and the quaternion to the
    identity (0, 0, 0, 1). *)
Theorem resetNative_clears_pose g :
  reachable g ->
  let g' := session_of (resetNative g) in
  result_of (getTrackingStateNative g') = 1 /\
  g_currentPose g' =
    [f32_zero; f32_zero; f32_zero; f32_zero; f32_zero; f32_zero; f32_one].
Proof.
  intros Hreach g'. subst g'. rewrite resetNative_eq.
  destruct (reachable_well_formed _ Hreach) as [_ _ _ (x & y & z & Hpose)].
  split; [reflexivity|].
  cbn [session_of fst snd g_currentPose]. by rewrite Hpose.
Qed.

End Properties.

Section Lifecycle.
Context {cv : OpenCV}.

(** C8, as the code has it. [initializeSlamNative] reads neither file: for
    every pair of paths and every session it marks the session initialised,
    sets the tracking state to 1, keeps [g_pSLAM] and the pose, and writes
    no error line; the session it leaves does not depend on the paths. *)
Theorem initializeSlamNative_always_initialized vocab settings g :
  let r := initializeSlamNative vocab settings g in
  g_isInitialized (session_of r) = true /\
  g_trackingState (session_of r) = 1 /\
  g_pSLAM (session_of r) = g_pSLAM g /\
  g_currentPose (session_of r) = g_currentPose g /\
  forallb (fun l => negb (is_error l)) (log_of r) = true /\
  (forall vocab' settings',
      session_of (initializeSlamNative vocab' settings' g) = session_of r).
Proof. intros r. subst r. rewrite initializeSlamNative_eq. done. Qed.

(** C9. [shutdownNative] is idempotent on every session: a second call in
    succession leaves the four globals exactly as the first call left them,
    returns normally and writes no error line. *)
Theorem shutdownNative_idempotent g :
  let once := shutdownNative g in
  let twice := shutdownNative (session_of once) in
  session_of twice = session_of once /\
  result_of twice = tt /\
  forallb (fun l => negb (is_error l)) (log_of twice) = true.
Proof.
  intros once twice. subst twice once.
  rewrite (shutdownNative_eq g). cbn [session_of fst snd].
  rewrite shutdownNative_eq. done.
Qed.

Lemma result_of_bind_ret {A B : Type} (m : Native A) (f : A -> B) g :
  result_of (bind m (fun a => ret (f a)) g) = f (result_of (m g)).
Proof.
  unfold result_of, bind, ret. destruct (m g) as [[a g1] out]. reflexivity.
Qed.

Lemma result_of_run_cons c cs g :
  result_of (run (c :: cs) g) =
    result_of (invoke c g) :: result_of (run cs (session_of (invoke c g))).
Proof.
  simpl. unfold result_of, session_of, bind, ret.
  destruct (invoke c g) as [[r g1] out1]. simpl.
  destruct (run cs g1) as [[rs g2] out2]. reflexivity.
Qed.

Lemma invoke_never_LOST c g :
  well_formed g -> result_of (invoke c g) <> ReplyInt 3.
Proof.
  intros Hwf. destruct c; unfold invoke.
  - by rewrite (result_of_bind_ret _ (fun _ => ReplyVoid)).
  - by rewrite result_of_bind_ret.
  - by rewrite (result_of_bind_ret _ (fun _ => ReplyVoid)).
  - by rewrite (result_of_bind_ret _ (fun _ => ReplyVoid)).
  - rewrite result_of_bind_ret. unfold getTrackingStateNative, load, result_of.
    cbn [fst]. destruct (wf_state _ Hwf) as [H|[H|H]]; rewrite H; discriminate.
Qed.

Lemma run_never_LOST cs : forall g,
  well_formed g -> Forall (fun r => r <> ReplyInt 3) (result_of (run cs g)).
Proof.
  induction cs as [|c cs IH]; intros g Hwf.
  - constructor.
  - rewrite result_of_run_cons. constructor.
    + by apply invoke_never_LOST.
    + apply IH. by apply well_formed_invoke.
Qed.

(** C10. After any sequence of native calls from process start,
    [getTrackingStateNative] returns 0, 1 or 2 and never 3 (LOST); nor did
    any [getTrackingStateNative] call inside the sequence return 3. *)
Theorem tracking_state_never_LOST (cs : list Call) :
  let n :=
    result_of (getTrackingStateNative (session_of (run cs initial_session))) in
  (n = 0 \/ n = 1 \/ n = 2) /\
  n <> 3 /\
  Forall (fun r => r <> ReplyInt 3) (result_of (run cs initial_session)).
Proof.
  intros n. subst n.
  assert (Hwf : well_formed (session_of (run cs initial_session))).
  { apply reachable_well_formed, reachable_run. constructor. }
  unfold getTrackingStateNative, load, result_of at 1 2 3 4. cbn [fst].
  split; [exact (wf_state _ Hwf)|]. split.
  - destruct (wf_state _ Hwf) as [H|[H|H]]; rewrite H; discriminate.
  - apply run_never_LOST, well_formed_initial.
Qed.

End Lifecycle.

(** ** The wrapper on concrete calls *)

Section Examples.
Import Fixture.
#[local] Existing Instance Fixture.cv.

Lemma reachable_started : reachable started.
Proof.
  exact (reachable_invoke initial_session
           (CallInitialize "ORBvoc.txt" "camera.yaml") reachable_initial).
Defined.

Lemma reachable_tracking : reachable tracking.
Proof.
  exact (reachable_invoke started (CallProcessFrame frame_path t1)
           reachable_started).
Defined.


(** C2 fails on the code: a frame stamped 1.0 that follows a frame stamped
    2.0 is not rejected; it returns a pose and moves the stored pose. *)
Lemma out_of_order_frame_is_tracked :
  let g1 := session_of (processFrameNative frame_path t2 started) in
  let late := processFrameNative frame_path t1 g1 in
  let d := S754_finite false 8589935 (-32) in
  SFltb t1 t2 = true /\
  result_of late = Some [d; d; d; f32_zero; f32_zero; f32_zero; f32_one] /\
  result_of late <> None /\
  session_of late <> g1.
Proof.
  vm_compute. repeat split; discriminate.
Qed.

Lemma processFrameNative_out_of_order_late_frame :
  SFltb t1 t2 = true /\
  let g1 := session_of (processFrameNative frame_path t2 started) in
  let late := processFrameNative frame_path t1 g1 in
  (forall t,
      result_of late = result_of (processFrameNative frame_path t g1) /\
      session_of late = session_of (processFrameNative frame_path t g1)) /\
  (if g_isInitialized g1 && negb (Mat_empty (frame_of frame_path))
   then result_of late = Some (take 7 (advance (g_currentPose g1))) /\
        g_currentPose (session_of late) = advance (g_currentPose g1) /\
        g_trackingState (session_of late) = 2
   else result_of late = None /\ session_of late = g1).
Proof.
  split; [reflexivity|].
  apply (processFrameNative_out_of_order started frame_path t2 frame_path t1).
  reflexivity.
Defined.

Lemma processFrameNative_unit_quaternion_first_frame :
  let pose :=
    [f32_milli; f32_milli; f32_milli; f32_zero; f32_zero; f32_zero; f32_one] in
  reachable started /\
  result_of (processFrameNative frame_path t1 started) = Some pose /\
  quaternion pose = [f32_zero; f32_zero; f32_zero; f32_one] /\
  norm (quaternion pose) = f32_one /\
  unit_norm (quaternion pose) = true.
Proof.
  intros pose. split; [exact reachable_started|]. split; [reflexivity|].
  apply (processFrameNative_unit_quaternion started frame_path t1 pose).
  - exact reachable_started.
  - reflexivity.
Defined.

(** C5 fails on the code: with tracking state 2, a frame that cannot be
    loaded leaves the tracking state at 2; it does not become 3 (LOST). The
    same holds for a data URI, which always decodes from the empty buffer. *)
Lemma invalid_frame_keeps_tracking_OK :
  reachable tracking /\
  g_trackingState tracking = 2 /\
  Mat_empty (frame_of missing_path) = true /\
  g_trackingState (session_of (processFrameNative missing_path t2 tracking)) = 2 /\
  g_trackingState (session_of (processFrameNative missing_path t2 tracking)) <> 3 /\
  Mat_empty (frame_of "data:image/png;base64,iVBORw0KGgo=") = true /\
  g_trackingState
    (session_of
       (processFrameNative "data:image/png;base64,iVBORw0KGgo=" t2 tracking)) <> 3.
Proof.
  split; [exact reachable_tracking|]. vm_compute. repeat split; discriminate.
Qed.

Lemma processFrameNative_invalid_frame_after_OK_missing_file :
  reachable tracking /\
  g_trackingState tracking = 2 /\
  Mat_empty (frame_of missing_path) = true /\
  let r := processFrameNative missing_path t2 tracking in
  result_of r = None /\
  last (log_of r) = Some (line ANDROID_LOG_ERROR "Invalid frame data" []) /\
  session_of r = tracking /\
  g_trackingState (session_of r) = 2 /\
  g_currentPose (session_of r) = g_currentPose tracking.
Proof.
  split; [exact reachable_tracking|]. split; [reflexivity|].
  split; [reflexivity|].
  apply (processFrameNative_invalid_frame_after_OK tracking missing_path t2).
  - exact reachable_tracking.
  - reflexivity.
  - reflexivity.
Defined.

(** C6 fails on the code: from tracking state 1, the same image presented
    twice (here even with the same timestamp) brings the tracking state
    to 2 (OK). *)
Lemma identical_frames_reach_OK :
  g_trackingState started = 1 /\
  g_trackingState
    (session_of
       (run [CallProcessFrame frame_path t1; CallProcessFrame frame_path t1]
          started)) = 2 /\
  g_trackingState (session_of (processFrameNative frame_path t1 started)) = 2.
Proof. vm_compute. repeat split. Qed.

Lemma processFrameNative_twice_same_image_started :
  g_trackingState started = 1 /\
  let g2 :=
    session_of
      (run [CallProcessFrame frame_path t1; CallProcessFrame frame_path t1]
         started) in
  g_trackingState g2 =
    if g_isInitialized started && negb (Mat_empty (frame_of frame_path))
    then 2 else 1.
Proof.
  split; [reflexivity|].
  apply (processFrameNative_twice_same_image started frame_path t1 t1).
  reflexivity.
Defined.

Lemma resetNative_clears_pose_tracking :
  reachable tracking /\
  g_currentPose tracking =
    [f32_milli; f32_milli; f32_milli; f32_zero; f32_zero; f32_zero; f32_one] /\
  let g' := session_of (resetNative tracking) in
  result_of (getTrackingStateNative g') = 1 /\
  g_currentPose g' =
    [f32_zero; f32_zero; f32_zero; f32_zero; f32_zero; f32_zero; f32_one].
Proof.
  split; [exact reachable_tracking|]. split; [reflexivity|].
  apply (resetNative_clears_pose tracking). exact reachable_tracking.
Defined.

(** C8 fails on the code: whatever files can be read, the session is marked
    initialised, also when neither path names a file. *)
Lemma initializeSlamNative_unreadable_files :
  g_isInitialized
    (session_of
       (initializeSlamNative "/missing/ORBvoc.txt" "/missing/camera.yaml"
          initial_session)) = true /\
  ~ (forall (readable : string -> bool) vocab settings g,
        readable vocab && readable settings = false ->
        g_isInitialized
          (session_of (initializeSlamNative vocab settings g)) = false).
Proof.
  split; [reflexivity|]. intros Hclaim.
  specialize (Hclaim (fun _ => false) "/missing/ORBvoc.txt"
                "/missing/camera.yaml" initial_session eq_refl).
  discriminate Hclaim.
Qed.

End Examples.

(** ** Further properties of the entry points *)

Section FrameCalls.
Context {cv : OpenCV}.

(** The two outcomes of a [processFrameNative] call. *)
Lemma processFrameNative_outcome g img ts :
  let r := processFrameNative img ts g in
  match result_of r with
  | None => session_of r = g
  | Some pose =>
      g_trackingState (session_of r) = 2 /\
      g_isInitialized (session_of r) = true /\
      g_pSLAM (session_of r) = g_pSLAM g /\
      g_currentPose (session_of r) = advance (g_currentPose g) /\
      pose = take 7 (g_currentPose (session_of r))
  end.
Proof.
  intros r. subst r. destruct (g_isInitialized g) eqn:Hinit.
  - destruct (Mat_empty (frame_of img)) eqn:Hframe.
    + by rewrite processFrameNative_invalid.
    + by rewrite processFrameNative_tracked.
  - by rewrite processFrameNative_uninitialized.
Qed.

(** X1. A [processFrameNative] call that returns [nullptr] leaves all four
    globals as they were; a call that returns a pose sets the tracking state
    to 2, keeps the initialised flag and [g_pSLAM], and the array it returns
    is the pose it has just stored. *)
Theorem processFrameNative_null_keeps_session g img ts :
  let r := processFrameNative img ts g in
  match result_of r with
  | None => session_of r = g
  | Some pose =>
      g_trackingState (session_of r) = 2 /\
      g_isInitialized (session_of r) = true /\
      g_pSLAM (session_of r) = g_pSLAM g /\
      g_currentPose (session_of r) = advance (g_currentPose g) /\
      pose = take 7 (g_currentPose (session_of r))
  end.
Proof. exact (processFrameNative_outcome g img ts). Qed.

(** X2. [processFrameNative] writes an error line exactly when it returns
    [nullptr]: none with a pose, two when the session is initialised and a
    file path fails to load (one from [loadImage], one for the invalid
    frame), and one in every other failing call. *)
Theorem processFrameNative_error_lines g img ts :
  let r := processFrameNative img ts g in
  error_lines (log_of r) =
    match result_of r with
    | Some _ => 0%nat
    | None =>
        if g_isInitialized g && negb (contains_data_image img)
        then 2%nat else 1%nat
    end /\
  (result_of r = None <-> existsb is_error (log_of r) = true).
Proof.
  intros r. subst r. destruct (g_isInitialized g) eqn:Hinit.
  - destruct (Mat_empty (frame_of img)) eqn:Hframe.
    + rewrite processFrameNative_invalid by done.
      unfold frame_of in Hframe. unfold frame_log.
      destruct (contains_data_image img); [by split|].
      rewrite Hframe. by split.
    + rewrite processFrameNative_tracked by done. by split.
  - rewrite processFrameNative_uninitialized by done. by split.
Qed.

(** X3. The payload of a data URI is never decoded: two image arguments that
    both contain "data:image" give the same result, the same session and
    the same log lines. *)
Theorem processFrameNative_data_uri_payload_ignored g a b ts :
  contains_data_image a = true ->
  contains_data_image b = true ->
  processFrameNative a ts g = processFrameNative b ts g.
Proof.
  intros Ha Hb.
  assert (Hsame : frame_of a = frame_of b).
  { unfold frame_of. by rewrite Ha, Hb. }
  assert (Hlog : frame_log a = frame_log b).
  { unfold frame_log. by rewrite Ha, Hb. }
  destruct (g_isInitialized g) eqn:Hinit.
  - destruct (Mat_empty (frame_of b)) eqn:Hframe.
    + rewrite !processFrameNative_invalid by (done || by rewrite Hsame).
      by rewrite Hlog.
    + by rewrite !processFrameNative_tracked by (done || by rewrite Hsame).
  - by rewrite !processFrameNative_uninitialized.
Qed.

(** X4. When the decoder gives an empty matrix for the empty buffer, every
    image argument that contains "data:image" is refused: the call returns
    [nullptr] and leaves the session as it was. *)
Theorem processFrameNative_data_uri_rejected g img ts :
  Mat_empty (imdecode []) = true ->
  contains_data_image img = true ->
  result_of (processFrameNative img ts g) = None /\
  session_of (processFrameNative img ts g) = g.
Proof.
  intros Hdecode Huri.
  assert (Hframe : Mat_empty (frame_of img) = true).
  { unfold frame_of. by rewrite Huri. }
  destruct (g_isInitialized g) eqn:Hinit.
  - by rewrite processFrameNative_invalid.
  - by rewrite processFrameNative_uninitialized.
Qed.


End FrameCalls.

Section SessionInvariants.
Context {cv : OpenCV}.

(** X6. In every reachable session the three position components are the
    same float and the quaternion is (0, 0, 0, 1); so is every pose array
    that [processFrameNative] returns there. *)
Theorem position_components_equal g :
  reachable g ->
  (exists p,
      g_currentPose g = [p; p; p; f32_zero; f32_zero; f32_zero; f32_one]) /\
  (forall img ts pose,
      result_of (processFrameNative img ts g) = Some pose ->
      exists p, pose = [p; p; p; f32_zero; f32_zero; f32_zero; f32_one]).
Proof.
  intros Hreach.
  assert (Hdiag : exists p,
             g_currentPose g = [p; p; p; f32_zero; f32_zero; f32_zero; f32_one]).
  { induction Hreach as [|g c _ [p Hp]].
    - by exists f32_zero.
    - rewrite session_of_invoke. destruct c as [v s|img ts| | |].
      + rewrite initializeSlamNative_eq. by exists p.
      + pose proof (processFrameNative_outcome g img ts) as Hcall.
        cbv zeta in Hcall.
        destruct (result_of (processFrameNative img ts g)) as [pose|].
        * destruct Hcall as (_ & _ & _ & -> & _). rewrite Hp.
          by exists (F32.add p f32_milli).
        * rewrite Hcall. by exists p.
      + rewrite resetNative_eq. exists f32_zero.
        cbn [session_of fst snd g_currentPose]. by rewrite Hp.
      + rewrite shutdownNative_eq. by exists p.
      + by exists p. }
  split; [exact Hdiag|]. intros img ts pose Hres. destruct Hdiag as [p Hp].
  pose proof (processFrameNative_outcome g img ts) as Hcall.
  cbv zeta in Hcall. rewrite Hres in Hcall.
  destruct Hcall as (_ & _ & _ & Hpose & ->). rewrite Hpose, Hp.
  by exists (F32.add p f32_milli).
Qed.

(** X7. In every reachable session the tracking state agrees with the
    initialised flag: an initialised session has tracking state 1 or 2, a
    session that is not initialised has tracking state 0 or 1. *)
Theorem tracking_state_matches_initialized g :
  reachable g ->
  if g_isInitialized g
  then g_trackingState g = 1 \/ g_trackingState g = 2
  else g_trackingState g = 0 \/ g_trackingState g = 1.
Proof.
  induction 1 as [|g c _ IH].
  - by left.
  - rewrite session_of_invoke. destruct c as [v s|img ts| | |].
    + rewrite initializeSlamNative_eq. by left.
    + pose proof (processFrameNative_outcome g img ts) as Hcall.
      cbv zeta in Hcall.
      destruct (result_of (processFrameNative img ts g)) as [pose|].
      * destruct Hcall as (-> & -> & _). by right.
      * by rewrite Hcall.
    + rewrite resetNative_eq. cbn [session_of fst snd g_isInitialized g_trackingState].
      destruct (g_isInitialized g); [by left | by right].
    + rewrite shutdownNative_eq. by left.
    + exact IH.
Qed.

(** X8. [g_pSLAM] is [nullptr] in every reachable session: no entry point
    ever stores anything else in it. *)
Theorem pSLAM_always_null g : reachable g -> g_pSLAM g = nullptr.
Proof.
  induction 1 as [|g c _ IH].
  - reflexivity.
  - rewrite session_of_invoke. destruct c as [v s|img ts| | |].
    + by rewrite initializeSlamNative_eq.
    + pose proof (processFrameNative_outcome g img ts) as Hcall.
      cbv zeta in Hcall.
      destruct (result_of (processFrameNative img ts g)) as [pose|].
      * destruct Hcall as (_ & _ & -> & _). exact IH.
      * by rewrite Hcall.
    + by rewrite resetNative_eq.
    + by rewrite shutdownNative_eq.
    + exact IH.
Qed.

End SessionInvariants.

Section Composition.
Context {cv : OpenCV}.

Lemma iter_advance k : forall x y z qx qy qz qw,
  Nat.iter k advance [x; y; z; qx; qy; qz; qw] =
    [incremented k x; incremented k y; incremented k z; qx; qy; qz; qw].
Proof.
  induction k as [|k IH]; intros x y z qx qy qz qw.
  - reflexivity.
  - cbn [Nat.iter nat_rect]. unfold Nat.iter in IH. by rewrite IH.
Qed.

Lemma run_frames_advance frames : forall g,
  g_isInitialized g = true ->
  let g' := session_of (run (map (fun f => CallProcessFrame f.1 f.2) frames) g) in
  g_currentPose g' = Nat.iter (tracked_count frames) advance (g_currentPose g) /\
  g_isInitialized g' = true /\
  g_trackingState g' =
    match tracked_count frames with
    | O => g_trackingState g
    | S _ => 2
    end.
Proof.
  induction frames as [|[img ts] frames IH]; intros g Hinit g'; subst g'.
  - done.
  - cbn [map]. rewrite session_of_run_cons, session_of_invoke. cbn [fst snd].
    unfold tracked_count. cbn [List.filter fst].
    destruct (Mat_empty (frame_of img)) eqn:Hframe; cbn [negb].
    + rewrite processFrameNative_invalid by done. cbn [session_of fst snd].
      exact (IH g Hinit).
    + rewrite processFrameNative_tracked by done. cbn [session_of fst snd].
      match goal with
      | |- context [run _ ?g1] => destruct (IH g1 eq_refl) as (Hpose & Hflag & Hstate)
      end.
      cbn [length]. rewrite Nat.iter_succ_r. split; [exact Hpose|].
      split; [exact Hflag|].
      rewrite Hstate. fold (tracked_count frames).
      by destruct (tracked_count frames).
Qed.

(** X9. In an initialised session, a run of [processFrameNative] calls moves
    each position component by as many [0.001f] increments as there are
    image arguments that give a non-empty frame; the failing calls in
    between count for nothing, the quaternion stays, and the tracking state
    ends at 2 as soon as one frame was accepted. *)
Theorem frames_advance_by_count (frames : list (jstring * jdouble)) g
    x y z qx qy qz qw :
  g_isInitialized g = true ->
  g_currentPose g = [x; y; z; qx; qy; qz; qw] ->
  let k := tracked_count frames in
  let g' := session_of (run (map (fun f => CallProcessFrame f.1 f.2) frames) g) in
  g_currentPose g' =
    [incremented k x; incremented k y; incremented k z; qx; qy; qz; qw] /\
  g_trackingState g' = match k with O => g_trackingState g | S _ => 2 end.
Proof.
  intros Hinit Hpose k g'. subst k g'.
  destruct (run_frames_advance frames g Hinit) as (Hrun & _ & Hstate).
  split; [|exact Hstate]. by rewrite Hrun, Hpose, iter_advance.
Qed.

(** X10. [shutdownNative] followed by [initializeSlamNative] does not clear
    the pose: the session is initialised again with tracking state 1 and the
    pose it had, and the next accepted frame returns that pose advanced by
    one increment. *)
Theorem restart_keeps_pose g vocab settings img ts :
  Mat_empty (frame_of img) = false ->
  let g' := session_of (run [CallShutdown; CallInitialize vocab settings] g) in
  g_currentPose g' = g_currentPose g /\
  g_isInitialized g' = true /\
  g_trackingState g' = 1 /\
  result_of (processFrameNative img ts g') =
    Some (take 7 (advance (g_currentPose g))).
Proof.
  intros Hframe g'. subst g'.
  rewrite !session_of_run_cons, !session_of_invoke.
  rewrite shutdownNative_eq. cbn [run ret session_of fst snd].
  by rewrite processFrameNative_tracked.
Qed.

(** X11. [resetNative] does not initialise: it keeps the initialised flag and
    [g_pSLAM]. On a session that is not initialised it sets the tracking
    state to 1, and every following [processFrameNative] call still returns
    [nullptr] and changes nothing. *)
Theorem resetNative_does_not_initialize g (frames : list (jstring * jdouble)) :
  g_isInitialized g = false ->
  let g' := session_of (resetNative g) in
  let after := run (map (fun f => CallProcessFrame f.1 f.2) frames) g' in
  g_isInitialized g' = false /\
  g_pSLAM g' = g_pSLAM g /\
  result_of (getTrackingStateNative g') = 1 /\
  result_of after = map (fun _ => ReplyPose None) frames /\
  session_of after = g'.
Proof.
  intros Hinit g' after.
  assert (Hflag : g_isInitialized g' = false).
  { subst g'. by rewrite resetNative_eq. }
  subst after. rewrite (run_frames_uninitialized frames g' Hflag).
  subst g'. by rewrite resetNative_eq.
Qed.

Lemma cleared_idempotent (pose : list jfloat) :
  cleared (cleared pose) = cleared pose.
Proof.
  do 7 (destruct pose as [|? pose]; [reflexivity|]). reflexivity.
Qed.

(** X12. [resetNative] is idempotent on every session: a second call in
    succession leaves the four globals as the first call left them. *)
Theorem resetNative_idempotent g :
  session_of (resetNative (session_of (resetNative g))) =
    session_of (resetNative g).
Proof.
  rewrite (resetNative_eq g). cbn [session_of fst snd].
  rewrite resetNative_eq. cbn [session_of fst snd g_pSLAM g_isInitialized g_currentPose].
  by rewrite cleared_idempotent.
Qed.

End Composition.

(** ** The further properties on concrete calls *)

Section MoreExamples.
Import Fixture.
#[local] Existing Instance Fixture.cv.

Lemma processFrameNative_data_uri_payload_ignored_png_jpeg :
  contains_data_image "data:image/png;base64,iVBORw0KGgo=" = true /\
  contains_data_image "data:image/jpeg;base64,/9j/4AAQSkZJRg==" = true /\
  processFrameNative "data:image/png;base64,iVBORw0KGgo=" t1 started =
    processFrameNative "data:image/jpeg;base64,/9j/4AAQSkZJRg==" t1 started.
Proof.
  split; [reflexivity|]. split; [reflexivity|].
  apply (processFrameNative_data_uri_payload_ignored started
           "data:image/png;base64,iVBORw0KGgo="
           "data:image/jpeg;base64,/9j/4AAQSkZJRg==" t1); reflexivity.
Defined.

Lemma processFrameNative_data_uri_rejected_png :
  Mat_empty (imdecode []) = true /\
  contains_data_image "data:image/png;base64,iVBORw0KGgo=" = true /\
  result_of
    (processFrameNative "data:image/png;base64,iVBORw0KGgo=" t1 tracking) = None /\
  session_of
    (processFrameNative "data:image/png;base64,iVBORw0KGgo=" t1 tracking) = tracking.
Proof.
  split; [reflexivity|]. split; [reflexivity|].
  apply (processFrameNative_data_uri_rejected tracking
           "data:image/png;base64,iVBORw0KGgo=" t1); reflexivity.
Defined.

Lemma position_components_equal_tracking :
  reachable tracking /\
  (exists p,
      g_currentPose tracking =
        [p; p; p; f32_zero; f32_zero; f32_zero; f32_one]) /\
  (forall img ts pose,
      result_of (processFrameNative img ts tracking) = Some pose ->
      exists p, pose = [p; p; p; f32_zero; f32_zero; f32_zero; f32_one]).
Proof.
  split; [exact reachable_tracking|].
  apply (position_components_equal tracking). exact reachable_tracking.
Defined.

Lemma tracking_state_matches_initialized_tracking :
  reachable tracking /\
  g_isInitialized tracking = true /\
  (g_trackingState tracking = 1 \/ g_trackingState tracking = 2).
Proof.
  split; [exact reachable_tracking|]. split; [reflexivity|].
  apply (tracking_state_matches_initialized tracking). exact reachable_tracking.
Defined.

Lemma pSLAM_always_null_tracking :
  reachable tracking /\ g_pSLAM tracking = nullptr.
Proof.
  split; [exact reachable_tracking|].
  apply (pSLAM_always_null tracking). exact reachable_tracking.
Defined.

(** Three calls of which the second names a missing file: two increments. *)
Lemma frames_advance_by_count_one_missing :
  let frames := [(frame_path, t1); (missing_path, t1); (frame_path, t2)] in
  g_isInitialized started = true /\
  tracked_count frames = 2%nat /\
  let g' := session_of (run (map (fun f => CallProcessFrame f.1 f.2) frames) started) in
  g_currentPose g' =
    [incremented 2 f32_zero; incremented 2 f32_zero; incremented 2 f32_zero;
     f32_zero; f32_zero; f32_zero; f32_one] /\
  g_trackingState g' = 2.
Proof.
  intros frames. split; [reflexivity|]. split; [reflexivity|].
  exact (frames_advance_by_count frames started
           f32_zero f32_zero f32_zero f32_zero f32_zero f32_zero f32_one
           eq_refl eq_refl).
Defined.

Lemma restart_keeps_pose_tracking :
  Mat_empty (frame_of frame_path) = false /\
  let g' :=
    session_of
      (run [CallShutdown; CallInitialize "ORBvoc.txt" "camera.yaml"] tracking) in
  g_currentPose g' = g_currentPose tracking /\
  g_isInitialized g' = true /\
  g_trackingState g' = 1 /\
  result_of (processFrameNative frame_path t2 g') =
    Some (take 7 (advance (g_currentPose tracking))).
Proof.
  split; [reflexivity|].
  apply (restart_keeps_pose tracking "ORBvoc.txt" "camera.yaml" frame_path t2).
  reflexivity.
Defined.

Lemma resetNative_does_not_initialize_at_start :
  let frames := [(frame_path, t1); (frame_path, t2)] in
  g_isInitialized initial_session = false /\
  let g' := session_of (resetNative initial_session) in
  let after := run (map (fun f => CallProcessFrame f.1 f.2) frames) g' in
  g_isInitialized g' = false /\
  g_pSLAM g' = g_pSLAM initial_session /\
  result_of (getTrackingStateNative g') = 1 /\
  result_of after = map (fun _ => ReplyPose None) frames /\
  session_of after = g'.
Proof.
  intros frames. split; [reflexivity|].
  apply (resetNative_does_not_initialize initial_session frames). reflexivity.
Defined.

End MoreExamples.
